(** * gobacktest: the event vocabulary of package [backtest]

    A shallow embedding of [pkg/backtest/events.go]: the five event structs
    (Bar, Tick, Signal, Order, Fill), the identity block they embed (Event),
    the interfaces they satisfy, and the accessors, mutators and derived
    values defined on them.

    Conventions of the embedding.
    - A Go struct is a record; an embedded struct is a field of the record
      that carries the embedded struct's name, and a promoted method is the
      embedded struct's method applied to that field.
    - A method with a value receiver is a function of the receiver.
    - A method with a pointer receiver is its body: a function from the
      contents of the receiver before the call to its contents afterwards.
      [invoke] is the call through a pointer, which may be nil.
    - A map is a reference into a heap of tables; the methods that receive
      a struct holding such a reference run in the monad [Go] over the heap.
    - float64 is the kernel's binary64; int64 is Z within [int64_ok]. *)

From Stdlib Require Import ZArith String List Bool Lia.
From Stdlib Require Import Floats.PrimFloat Floats.SpecFloat Floats.FloatOps.
From Stdlib Require Import Floats.FloatAxioms.
From stdpp Require Import base gmap strings.

Local Open Scope string_scope.

(** ** Predeclared types of Go *)

(** float64 is IEEE 754 binary64. Each operation rounds on its own, to
    nearest even (the code the gc compiler emits for amd64; no fused
    multiply-add). *)
Definition float64 : Set := float.

Bind Scope float_scope with float64.

(** int64: the integers from [int64_min] to [int64_max]. *)
Definition int64 : Set := Z.

Bind Scope Z_scope with int64.

Definition int64_min : Z := (- 2 ^ 63)%Z.

Definition int64_max : Z := (2 ^ 63 - 1)%Z.

Definition int64_ok (i : int64) : Prop := (int64_min <= i <= int64_max)%Z.

(** The conversion [float64(i)] of an integer, constant or int64: the
    nearest binary64, ties to even. *)
Definition float64_of_int (i : Z) : float64 :=
  SF2Prim (binary_normalize 53 1024 i 0 false).

(** Go's [==] on float64 is the IEEE comparison: NaN differs from itself,
    and the two zeros are equal. *)
Definition float64_eq (x y : float64) : bool := (x =? y)%float.

Module time.

(** [time.Time] of the standard library: a struct of three words (wall
    clock, extended seconds, location pointer), copied whole by assignment
    and by parameter passing. *)
Record Time : Set := mk { wall : Z; ext : Z; loc : option positive }.

End time.

(** ** Heap of maps *)

(** A value of type [map[string]float64] is nil or a reference to a table
    that every copy of the value shares. *)
Definition map_ref : Set := option positive.

Abbreviation table := (gmap string float64).

Abbreviation heap := (gmap positive table).

(** Computations over the heap of tables. *)
Definition Go (A : Type) : Type := heap -> A * heap.

Definition ret {A : Type} (a : A) : Go A := fun h => (a, h).

Definition bind {A B : Type} (c : Go A) (k : A -> Go B) : Go B :=
  fun h => let (a, h') := c h in k a h'.

(** Outcome of a call: it returns, or the goroutine panics. *)
Inductive outcome (A : Type) : Type :=
| Returns (a : A)
| Panics.

Arguments Returns {A} a.
Arguments Panics {A}.

(** The call [p.m(...)] of a method with a pointer receiver, [m] being the
    body of the method with its arguments applied: a nil [p] is dereferenced
    by the first field access, which panics; otherwise the object [p] points
    to is updated in place. *)
Definition invoke {A : Type} (p : option A) (m : A -> A) : outcome A :=
  match p with
  | Some a => Returns (m a)
  | None => Panics
  end.

(** ** Event: timestamp and symbol *)

Module Event.

Record t : Set := mk { timestamp : time.Time; symbol : string }.

(** [func (e Event) Time() time.Time] *)
Definition Time (e : t) : time.Time := timestamp e.

(** [func (e *Event) SetTime(t time.Time)] *)
Definition SetTime (x : time.Time) (e : t) : t :=
  {| timestamp := x; symbol := symbol e |}.

(** [func (e Event) Symbol() string] *)
Definition Symbol (e : t) : string := symbol e.

(** [func (e *Event) SetSymbol(s string)] *)
Definition SetSymbol (s : string) (e : t) : t :=
  {| timestamp := timestamp e; symbol := s |}.

End Event.

(** ** DataEvent: the metrics carried by market data *)

Module DataEvent.

Record t : Set := mk { Metrics : map_ref }.

End DataEvent.

(** ** Bar *)

Module Bar.

Record t : Set := mk {
  Event : Event.t;
  DataEvent : DataEvent.t;
  Open : float64;
  High : float64;
  Low : float64;
  Close : float64;
  AdjClose : float64;
  Volume : int64
}.

(** The field [Metrics], promoted from the embedded DataEvent. *)
Definition Metrics (b : t) : map_ref := DataEvent.Metrics (DataEvent b).

(** The bar after an assignment to the embedded Event, and the fields of
    the bar outside the embedded Event. *)
Definition with_Event (e : Event.t) (b : t) : t :=
  mk e (DataEvent b) (Open b) (High b) (Low b) (Close b) (AdjClose b) (Volume b).

Definition own (b : t) :=
  (DataEvent b, Open b, High b, Low b, Close b, AdjClose b, Volume b).

(** The methods promoted from the embedded Event: [b.Time()] is
    [b.Event.Time()] and [b.SetTime(x)] is [(&b.Event).SetTime(x)]. *)
Definition Time (b : t) : time.Time := Event.Time (Event b).

Definition SetTime (x : time.Time) (b : t) : t :=
  with_Event (Event.SetTime x (Event b)) b.

Definition Symbol (b : t) : string := Event.Symbol (Event b).

Definition SetSymbol (s : string) (b : t) : t :=
  with_Event (Event.SetSymbol s (Event b)) b.

(** [func (b Bar) LatestPrice() float64]: the receiver is a copy of the
    bar, its Metrics a reference into the heap. *)
Definition LatestPrice (b : t) : Go float64 :=
  ret (Close b).

End Bar.

(** ** Tick *)

Module Tick.

Record t : Set := mk {
  Event : Event.t;
  DataEvent : DataEvent.t;
  Bid : float64;
  Ask : float64
}.

Definition Metrics (k : t) : map_ref := DataEvent.Metrics (DataEvent k).

Definition with_Event (e : Event.t) (k : t) : t :=
  mk e (DataEvent k) (Bid k) (Ask k).

Definition own (k : t) := (DataEvent k, Bid k, Ask k).

Definition Time (k : t) : time.Time := Event.Time (Event k).

Definition SetTime (x : time.Time) (k : t) : t :=
  with_Event (Event.SetTime x (Event k)) k.

Definition Symbol (k : t) : string := Event.Symbol (Event k).

Definition SetSymbol (s : string) (k : t) : t :=
  with_Event (Event.SetSymbol s (Event k)) k.

(** [func (t Tick) LatestPrice() float64] *)
Definition LatestPrice (k : t) : Go float64 :=
  let latest := ((Bid k + Ask k) / float64_of_int 2)%float in
  ret latest.

End Tick.

(** ** Signal *)

Module Signal.

Record t : Set := mk {
  Event : Event.t;
  direction : string (* long or short *)
}.

Definition with_Event (e : Event.t) (s : t) : t := mk e (direction s).

Definition own (s : t) := direction s.

Definition Time (s : t) : time.Time := Event.Time (Event s).

Definition SetTime (x : time.Time) (s : t) : t :=
  with_Event (Event.SetTime x (Event s)) s.

Definition Symbol (s : t) : string := Event.Symbol (Event s).

Definition SetSymbol (x : string) (s : t) : t :=
  with_Event (Event.SetSymbol x (Event s)) s.

(** [func (s Signal) Direction() string] *)
Definition Direction (s : t) : string := direction s.

(** [func (s *Signal) SetDirection(dir string)] *)
Definition SetDirection (dir : string) (s : t) : t :=
  {| Event := Event s; direction := dir |}.

End Signal.

(** ** Order *)

Module Order.

Record t : Set := mk {
  Event : Event.t;
  direction : string; (* buy or sell *)
  qty : int64;        (* quantity of the order *)
  OrderType : string; (* market or limit *)
  Limit : float64     (* limit for the order *)
}.

Definition with_Event (e : Event.t) (o : t) : t :=
  mk e (direction o) (qty o) (OrderType o) (Limit o).

Definition own (o : t) := (direction o, qty o, OrderType o, Limit o).

Definition Time (o : t) : time.Time := Event.Time (Event o).

Definition SetTime (x : time.Time) (o : t) : t :=
  with_Event (Event.SetTime x (Event o)) o.

Definition Symbol (o : t) : string := Event.Symbol (Event o).

Definition SetSymbol (x : string) (o : t) : t :=
  with_Event (Event.SetSymbol x (Event o)) o.

(** [func (o Order) Direction() string] *)
Definition Direction (o : t) : string := direction o.

(** [func (o *Order) SetDirection(s string)] *)
Definition SetDirection (s : string) (o : t) : t :=
  {| Event := Event o; direction := s; qty := qty o;
     OrderType := OrderType o; Limit := Limit o |}.

(** [func (o Order) Qty() int64] *)
Definition Qty (o : t) : int64 := qty o.

(** [func (o *Order) SetQty(i int64)] *)
Definition SetQty (i : int64) (o : t) : t :=
  {| Event := Event o; direction := direction o; qty := i;
     OrderType := OrderType o; Limit := Limit o |}.

End Order.

(** ** Fill *)

Module Fill.

Record t : Set := mk {
  Event : Event.t;
  Exchange : string;  (* exchange symbol *)
  direction : string; (* BOT for buy or SLD for sell *)
  qty : int64;
  price : float64;
  commission : float64;
  exchangeFee : float64;
  cost : float64      (* the total cost of the filled order incl commission and fees *)
}.

Definition with_Event (e : Event.t) (f : t) : t :=
  mk e (Exchange f) (direction f) (qty f)
     (price f) (commission f) (exchangeFee f) (cost f).

Definition own (f : t) :=
  (Exchange f, direction f, qty f, price f, commission f, exchangeFee f, cost f).

Definition Time (f : t) : time.Time := Event.Time (Event f).

Definition SetTime (x : time.Time) (f : t) : t :=
  with_Event (Event.SetTime x (Event f)) f.

Definition Symbol (f : t) : string := Event.Symbol (Event f).

Definition SetSymbol (x : string) (f : t) : t :=
  with_Event (Event.SetSymbol x (Event f)) f.

(** [func (f Fill) Direction() string] *)
Definition Direction (f : t) : string := direction f.

(** [func (f *Fill) SetDirection(s string)] *)
Definition SetDirection (s : string) (f : t) : t :=
  {| Event := Event f; Exchange := Exchange f; direction := s; qty := qty f;
     price := price f; commission := commission f;
     exchangeFee := exchangeFee f; cost := cost f |}.

(** [func (f Fill) Qty() int64] *)
Definition Qty (f : t) : int64 := qty f.

(** [func (f *Fill) SetQty(i int64)] *)
Definition SetQty (i : int64) (f : t) : t :=
  {| Event := Event f; Exchange := Exchange f; direction := direction f;
     qty := i; price := price f; commission := commission f;
     exchangeFee := exchangeFee f; cost := cost f |}.

(** [func (f Fill) Price() float64] *)
Definition Price (f : t) : float64 := price f.

(** [func (f Fill) Commission() float64] *)
Definition Commission (f : t) : float64 := commission f.

(** [func (f Fill) ExchangeFee() float64] *)
Definition ExchangeFee (f : t) : float64 := exchangeFee f.

(** [func (f Fill) Cost() float64] *)
Definition Cost (f : t) : float64 := cost f.

(** [func (f Fill) Value() float64] *)
Definition Value (f : t) : float64 :=
  let value := (float64_of_int (qty f) * price f)%float in
  value.

(** [func (f Fill) NetValue() float64] *)
Definition NetValue (f : t) : float64 :=
  if String.eqb (direction f) "BOT" then
    (* qty * price + cost *)
    let netValue := (float64_of_int (qty f) * price f + cost f)%float in
    netValue
  else
    (* SLD: qty * price - cost *)
    let netValue := (float64_of_int (qty f) * price f - cost f)%float in
    netValue.

End Fill.

(** ** Interfaces *)

(** An interface is a class of its methods; a struct whose pointer type has
    the methods is an instance. *)

Class Timer (A : Type) := {
  Time : A -> time.Time;
  SetTime : time.Time -> A -> A
}.

Class Symboler (A : Type) := {
  Symbol : A -> string;
  SetSymbol : string -> A -> A
}.

Class EventHandler (A : Type) := {
  EventHandler_Timer :: Timer A;
  EventHandler_Symboler :: Symboler A
}.

Class DataEventHandler (A : Type) := {
  DataEventHandler_EventHandler :: EventHandler A;
  LatestPrice : A -> Go float64
}.

(** BarEvent and TickEvent both embed DataEventHandler and add nothing. *)
Abbreviation BarEvent := DataEventHandler.

Abbreviation TickEvent := DataEventHandler.

Class Directioner (A : Type) := {
  Direction : A -> string;
  SetDirection : string -> A -> A
}.

Class Quantifier (A : Type) := {
  Qty : A -> int64;
  SetQty : int64 -> A -> A
}.

Class SignalEvent (A : Type) := {
  SignalEvent_EventHandler :: EventHandler A;
  SignalEvent_Directioner :: Directioner A
}.

Class OrderEvent (A : Type) := {
  OrderEvent_EventHandler :: EventHandler A;
  OrderEvent_Directioner :: Directioner A;
  OrderEvent_Quantifier :: Quantifier A
}.

Class FillEvent (A : Type) := {
  FillEvent_EventHandler :: EventHandler A;
  FillEvent_Directioner :: Directioner A;
  FillEvent_Quantifier :: Quantifier A;
  Price : A -> float64;
  Commission : A -> float64;
  ExchangeFee : A -> float64;
  Cost : A -> float64;
  Value : A -> float64;
  NetValue : A -> float64
}.

#[export] Instance Event_Timer : Timer Event.t :=
  {| Time := Event.Time; SetTime := Event.SetTime |}.

#[export] Instance Event_Symboler : Symboler Event.t :=
  {| Symbol := Event.Symbol; SetSymbol := Event.SetSymbol |}.

#[export] Instance Event_EventHandler : EventHandler Event.t := {}.

#[export] Instance Bar_Timer : Timer Bar.t :=
  {| Time := Bar.Time; SetTime := Bar.SetTime |}.

#[export] Instance Bar_Symboler : Symboler Bar.t :=
  {| Symbol := Bar.Symbol; SetSymbol := Bar.SetSymbol |}.

#[export] Instance Bar_BarEvent : BarEvent Bar.t :=
  {| DataEventHandler_EventHandler := Build_EventHandler _ _ _;
     LatestPrice := Bar.LatestPrice |}.

#[export] Instance Tick_Timer : Timer Tick.t :=
  {| Time := Tick.Time; SetTime := Tick.SetTime |}.

#[export] Instance Tick_Symboler : Symboler Tick.t :=
  {| Symbol := Tick.Symbol; SetSymbol := Tick.SetSymbol |}.

#[export] Instance Tick_TickEvent : TickEvent Tick.t :=
  {| DataEventHandler_EventHandler := Build_EventHandler _ _ _;
     LatestPrice := Tick.LatestPrice |}.

#[export] Instance Signal_Timer : Timer Signal.t :=
  {| Time := Signal.Time; SetTime := Signal.SetTime |}.

#[export] Instance Signal_Symboler : Symboler Signal.t :=
  {| Symbol := Signal.Symbol; SetSymbol := Signal.SetSymbol |}.

#[export] Instance Signal_Directioner : Directioner Signal.t :=
  {| Direction := Signal.Direction; SetDirection := Signal.SetDirection |}.

#[export] Instance Signal_SignalEvent : SignalEvent Signal.t :=
  {| SignalEvent_EventHandler := Build_EventHandler _ _ _ |}.

#[export] Instance Order_Timer : Timer Order.t :=
  {| Time := Order.Time; SetTime := Order.SetTime |}.

#[export] Instance Order_Symboler : Symboler Order.t :=
  {| Symbol := Order.Symbol; SetSymbol := Order.SetSymbol |}.

#[export] Instance Order_Directioner : Directioner Order.t :=
  {| Direction := Order.Direction; SetDirection := Order.SetDirection |}.

#[export] Instance Order_Quantifier : Quantifier Order.t :=
  {| Qty := Order.Qty; SetQty := Order.SetQty |}.

#[export] Instance Order_OrderEvent : OrderEvent Order.t :=
  {| OrderEvent_EventHandler := Build_EventHandler _ _ _ |}.

#[export] Instance Fill_Timer : Timer Fill.t :=
  {| Time := Fill.Time; SetTime := Fill.SetTime |}.

#[export] Instance Fill_Symboler : Symboler Fill.t :=
  {| Symbol := Fill.Symbol; SetSymbol := Fill.SetSymbol |}.

#[export] Instance Fill_Directioner : Directioner Fill.t :=
  {| Direction := Fill.Direction; SetDirection := Fill.SetDirection |}.

#[export] Instance Fill_Quantifier : Quantifier Fill.t :=
  {| Qty := Fill.Qty; SetQty := Fill.SetQty |}.

#[export] Instance Fill_FillEvent : FillEvent Fill.t :=
  {| FillEvent_EventHandler := Build_EventHandler _ _ _;
     Price := Fill.Price;
     Commission := Fill.Commission;
     ExchangeFee := Fill.ExchangeFee;
     Cost := Fill.Cost;
     Value := Fill.Value;
     NetValue := Fill.NetValue |}.

(** ** Properties of accessors and mutators *)

(** Reading an attribute after setting it gives back the value set. *)
Definition round_trip {A X : Type} (set : X -> A -> A) (get : A -> X) : Prop :=
  forall (x : X) (a : A), get (set x a) = x.

(** The call of a setter on a live receiver returns, with the value stored,
    whatever the value is. *)
Definition never_fails {A X : Type} (set : X -> A -> A) (get : A -> X) : Prop :=
  forall (x : X) (a : A),
    exists a' : A, invoke (Some a) (set x) = Returns a' /\ get a' = x.

(** A setter leaves an observation of the receiver as it was. *)
Definition preserves {A X B : Type} (set : X -> A -> A) (obs : A -> B) : Prop :=
  forall (x : X) (a : A), obs (set x a) = obs a.

(** Two setters can be applied in either order. *)
Definition commute {A X Y : Type} (f : X -> A -> A) (g : Y -> A -> A) : Prop :=
  forall (x : X) (y : Y) (a : A), f x (g y a) = g y (f x a).

(** [get] and [put] read and assign a field of type Event of a struct. *)
Definition embeds {A : Type} (get : A -> Event.t) (put : Event.t -> A -> A) : Prop :=
  (forall e a, get (put e a) = e) /\
  (forall e e' a, put e (put e' a) = put e a).

(** The method [m] of Event as promoted to a struct that embeds an Event:
    it is applied to the embedded field, in place. *)
Definition promoted {A X : Type} (get : A -> Event.t) (put : Event.t -> A -> A)
    (m : X -> Event.t -> Event.t) : X -> A -> A :=
  fun x a => put (m x (get a)) a.

(** Bars that agree on every field but Metrics and AdjClose. *)
Definition Bar_agree_but_Metrics_AdjClose (b1 b2 : Bar.t) : Prop :=
  Bar.Event b1 = Bar.Event b2 /\
  Bar.Open b1 = Bar.Open b2 /\
  Bar.High b1 = Bar.High b2 /\
  Bar.Low b1 = Bar.Low b2 /\
  Bar.Close b1 = Bar.Close b2 /\
  Bar.Volume b1 = Bar.Volume b2.

(** Ticks that agree on every field but Metrics. *)
Definition Tick_agree_but_Metrics (k1 k2 : Tick.t) : Prop :=
  Tick.Event k1 = Tick.Event k2 /\
  Tick.Bid k1 = Tick.Bid k2 /\
  Tick.Ask k1 = Tick.Ask k2.

(** Fills that agree on qty, price, cost and direction. *)
Definition Fill_agree_on_net_inputs (f1 f2 : Fill.t) : Prop :=
  Fill.qty f1 = Fill.qty f2 /\
  Fill.price f1 = Fill.price f2 /\
  Fill.cost f1 = Fill.cost f2 /\
  Fill.direction f1 = Fill.direction f2.

(** Of two calls of a setter in a row, the second alone counts. *)
Definition last_write_wins {A X : Type} (set : X -> A -> A) : Prop :=
  forall (x y : X) (a : A), set x (set y a) = set x a.

(** Setting an attribute to the value it has leaves the receiver as it is. *)
Definition idle_on_same {A X : Type} (set : X -> A -> A) (get : A -> X) : Prop :=
  forall a : A, set (get a) a = a.

(** ** Sample values *)

(** The zero value of [time.Time] and of Event. *)
Definition zero_Time : time.Time := time.mk 0 0 None.

Definition zero_Event : Event.t := Event.mk zero_Time "".

(** [Fill{direction: d, qty: q, price: p, cost: c}], the other fields zero. *)
Definition sample_Fill (d : string) (q : int64) (p c : float64) : Fill.t :=
  Fill.mk zero_Event "" d q p 0%float 0%float c.

(** [Bar{Close: c}] and [Tick{Bid: b, Ask: a}], the other fields zero and
    the metrics nil. *)
Definition sample_Bar (c : float64) : Bar.t :=
  Bar.mk zero_Event (DataEvent.mk None) 0%float 0%float 0%float c 0%float 0%Z.

Definition sample_Tick (b a : float64) : Tick.t :=
  Tick.mk zero_Event (DataEvent.mk None) b a.

(** ** float64 *)

Lemma float64_of_int_2 : float64_of_int 2 = 2%float.
Proof. vm_compute. reflexivity. Qed.

(** Conversions at the ends of int64 and at the first integer binary64
    cannot hold (a tie, rounded to even). *)
Example float64_of_int_samples :
  float64_of_int 5 = 5%float /\
  float64_of_int (-7) = (-7)%float /\
  float64_of_int (2 ^ 53 + 1) = 9007199254740992%float /\
  float64_of_int int64_max = 9223372036854775808%float /\
  float64_of_int int64_min = (-9223372036854775808)%float.
Proof. repeat split; vm_compute; reflexivity. Qed.

(** Under Go's [==] a float64 equals itself unless it is NaN. *)
Lemma float64_eq_self (x : float64) : float64_eq x x = negb (is_nan x).
Proof. unfold float64_eq, is_nan. now rewrite negb_involutive. Qed.

Lemma float64_eq_of_eq (x y : float64) :
  x = y -> is_nan y = false -> float64_eq x y = true.
Proof. intros -> Hy. rewrite float64_eq_self, Hy. reflexivity. Qed.

(** ** The heap monad *)

Lemma bind_ret_l {A B : Type} (a : A) (k : A -> Go B) (h : heap) :
  bind (ret a) k h = k a h.
Proof. reflexivity. Qed.

(** ** Market data: LatestPrice *)

Lemma Bar_LatestPrice_run (b : Bar.t) (h : heap) :
  Bar.LatestPrice b h = (Bar.Close b, h).
Proof. reflexivity. Qed.

Lemma Tick_LatestPrice_run (k : Tick.t) (h : heap) :
  Tick.LatestPrice k h = ((Tick.Bid k + Tick.Ask k) / 2, h)%float.
Proof. unfold Tick.LatestPrice, ret. now rewrite float64_of_int_2. Qed.

(** Asking twice in a row gives the same price twice. *)
Lemma Bar_LatestPrice_twice (b : Bar.t) (h : heap) :
  bind (Bar.LatestPrice b) (fun p => bind (Bar.LatestPrice b) (fun q => ret (p, q))) h
  = ((Bar.Close b, Bar.Close b), h).
Proof. unfold Bar.LatestPrice. now rewrite !bind_ret_l. Qed.

(** C2. For every Bar (whatever its Open, High, Low, AdjClose, Volume,
    identity and metrics, and whatever the heap holds), LatestPrice returns
    the Close field. *)
Theorem Bar_LatestPrice_is_Close :
  (forall (b : Bar.t) (h : heap), fst (Bar.LatestPrice b h) = Bar.Close b) /\
  (forall (ev : Event.t) (de : DataEvent.t) (o hi lo cl adj : float64)
          (vol : int64) (h : heap),
      fst (Bar.LatestPrice (Bar.mk ev de o hi lo cl adj vol) h) = cl).
Proof.
  split.
  - intros b h. now rewrite Bar_LatestPrice_run.
  - intros ev de o hi lo cl adj vol h. now rewrite Bar_LatestPrice_run.
Qed.

(** C3. For every Tick, LatestPrice returns (Bid + Ask) / 2; nothing is
    assumed of the order of Bid and Ask, so a crossed quote is averaged
    like any other. *)
Theorem Tick_LatestPrice_is_mid :
  (forall (k : Tick.t) (h : heap),
      fst (Tick.LatestPrice k h) = ((Tick.Bid k + Tick.Ask k) / 2)%float) /\
  (forall h : heap,
      (Tick.Ask (sample_Tick 100.5 100) <? Tick.Bid (sample_Tick 100.5 100))%float = true /\
      fst (Tick.LatestPrice (sample_Tick 100.5 100) h) = 100.25%float).
Proof.
  split.
  - intros k h. now rewrite Tick_LatestPrice_run.
  - intros h. split; [reflexivity|].
    rewrite Tick_LatestPrice_run. reflexivity.
Qed.

(** C8. LatestPrice neither reads nor writes the metrics, and on a Bar it
    does not read AdjClose: two Bars that agree on every field but Metrics
    and AdjClose, run on any two heaps, return the same price and leave
    their heaps (hence every metrics table) as they were; likewise two
    Ticks that agree on every field but Metrics. *)
Theorem LatestPrice_ignores_Metrics :
  (forall (b1 b2 : Bar.t) (h1 h2 : heap),
      Bar_agree_but_Metrics_AdjClose b1 b2 ->
      fst (Bar.LatestPrice b1 h1) = fst (Bar.LatestPrice b2 h2) /\
      snd (Bar.LatestPrice b1 h1) = h1 /\
      snd (Bar.LatestPrice b2 h2) = h2) /\
  (forall (k1 k2 : Tick.t) (h1 h2 : heap),
      Tick_agree_but_Metrics k1 k2 ->
      fst (Tick.LatestPrice k1 h1) = fst (Tick.LatestPrice k2 h2) /\
      snd (Tick.LatestPrice k1 h1) = h1 /\
      snd (Tick.LatestPrice k2 h2) = h2).
Proof.
  split.
  - intros b1 b2 h1 h2 (_ & _ & _ & _ & Hclose & _).
    rewrite !Bar_LatestPrice_run. cbn [fst snd].
    auto.
  - intros k1 k2 h1 h2 (_ & Hbid & Hask).
    rewrite !Tick_LatestPrice_run. cbn [fst snd].
    rewrite Hbid, Hask. auto.
Qed.

(** Two bars with different metrics (nil, and a table that holds an
    indicator) and different adjusted closes; two ticks likewise. *)
Lemma LatestPrice_ignores_Metrics_witness :
  let h1 : heap := ∅ in
  let h2 : heap := {[ 1%positive := {[ "sma" := 2.25%float ]} ]} in
  let b1 := Bar.mk zero_Event (DataEvent.mk None) 1 3 0.5 2 2 10 in
  let b2 := Bar.mk zero_Event (DataEvent.mk (Some 1%positive)) 1 3 0.5 2 1.75 10 in
  let k1 := Tick.mk zero_Event (DataEvent.mk None) 100 100.5 in
  let k2 := Tick.mk zero_Event (DataEvent.mk (Some 1%positive)) 100 100.5 in
  (Bar.Metrics b1 <> Bar.Metrics b2 /\
   float64_eq (Bar.AdjClose b1) (Bar.AdjClose b2) = false /\
   fst (Bar.LatestPrice b1 h1) = fst (Bar.LatestPrice b2 h2) /\
   snd (Bar.LatestPrice b1 h1) = h1 /\
   snd (Bar.LatestPrice b2 h2) = h2) /\
  (Tick.Metrics k1 <> Tick.Metrics k2 /\
   fst (Tick.LatestPrice k1 h1) = fst (Tick.LatestPrice k2 h2) /\
   snd (Tick.LatestPrice k1 h1) = h1 /\
   snd (Tick.LatestPrice k2 h2) = h2).
Proof.
  cbv zeta. split.
  - split; [discriminate|]. split; [reflexivity|].
    apply (proj1 LatestPrice_ignores_Metrics).
    unfold Bar_agree_but_Metrics_AdjClose. cbn.
    split; [|split; [|split; [|split; [|split]]]]; reflexivity.
  - split; [discriminate|].
    apply (proj2 LatestPrice_ignores_Metrics).
    unfold Tick_agree_but_Metrics. cbn.
    split; [|split]; reflexivity.
Defined.

(** ** Fill: Value and NetValue *)

(** C4. Value is Qty * Price, the quantity converted to float64, whatever
    the direction, commission, exchange fee and cost. *)
Theorem Fill_Value_is_Qty_times_Price :
  (forall f : Fill.t,
      Fill.Value f = (float64_of_int (Fill.Qty f) * Fill.Price f)%float) /\
  (forall (ev : Event.t) (ex dir : string) (q : int64)
          (p com fee c : float64),
      Fill.Value (Fill.mk ev ex dir q p com fee c) = (float64_of_int q * p)%float).
Proof.
  split.
  - intros f. unfold Fill.Value, Fill.Qty, Fill.Price. reflexivity.
  - intros ev ex dir q p com fee c. unfold Fill.Value. reflexivity.
Qed.

Lemma Fill_NetValue_BOT (f : Fill.t) :
  Fill.direction f = "BOT" ->
  Fill.NetValue f = (float64_of_int (Fill.qty f) * Fill.price f + Fill.cost f)%float.
Proof.
  intros H. unfold Fill.NetValue.
  apply String.eqb_eq in H. now rewrite H.
Qed.

Lemma Fill_NetValue_not_BOT (f : Fill.t) :
  Fill.direction f <> "BOT" ->
  Fill.NetValue f = (float64_of_int (Fill.qty f) * Fill.price f - Fill.cost f)%float.
Proof.
  intros H. unfold Fill.NetValue.
  apply String.eqb_neq in H. now rewrite H.
Qed.

(** C1. NetValue is Qty * Price + Cost when the direction is "BOT", and
    Qty * Price - Cost for every other direction string, "SLD", "unknown"
    and the empty string among them; it always returns a float64 (there is
    no other outcome). Fill{"unknown", 5, 10.0, 1.0} yields 49.0. *)
Theorem Fill_NetValue_by_direction :
  forall f : Fill.t,
    (Fill.Direction f = "BOT" ->
     Fill.NetValue f
     = (float64_of_int (Fill.Qty f) * Fill.Price f + Fill.Cost f)%float) /\
    (Fill.Direction f <> "BOT" ->
     Fill.NetValue f
     = (float64_of_int (Fill.Qty f) * Fill.Price f - Fill.Cost f)%float) /\
    (In (Fill.Direction f) ["SLD"; "unknown"; ""] ->
     Fill.NetValue f
     = (float64_of_int (Fill.Qty f) * Fill.Price f - Fill.Cost f)%float) /\
    (forall (ev : Event.t) (ex : string) (com fee : float64),
        Fill.NetValue (Fill.mk ev ex "unknown" 5 10 com fee 1) = 49%float).
Proof.
  intros f. unfold Fill.Direction, Fill.Qty, Fill.Price, Fill.Cost.
  split; [apply Fill_NetValue_BOT|].
  split; [apply Fill_NetValue_not_BOT|].
  split.
  - intros Hin. apply Fill_NetValue_not_BOT.
    destruct Hin as [<-|[<-|[<-|[]]]]; discriminate.
  - intros ev ex com fee.
    rewrite Fill_NetValue_not_BOT by discriminate.
    vm_compute. reflexivity.
Qed.

(** The scenarios of a buy and of a sell of 10 at 50.0 with cost 2.5. *)
Lemma Fill_NetValue_by_direction_witness :
  Fill.NetValue (sample_Fill "BOT" 10 50 2.5) = 502.5%float /\
  Fill.NetValue (sample_Fill "SLD" 10 50 2.5) = 497.5%float.
Proof.
  split.
  - rewrite (proj1 (Fill_NetValue_by_direction (sample_Fill "BOT" 10 50 2.5)))
      by reflexivity.
    vm_compute. reflexivity.
  - rewrite (proj1 (proj2 (Fill_NetValue_by_direction (sample_Fill "SLD" 10 50 2.5))))
      by discriminate.
    vm_compute. reflexivity.
Defined.

(** C7. NetValue reads qty, price, cost and direction only: Fills that
    agree on those four return the same NetValue, however they differ in
    commission, exchangeFee, Exchange, timestamp and symbol; the cost is
    taken as stored, never recomputed from commission and exchange fee. *)
Theorem Fill_NetValue_reads_four_fields :
  forall f1 f2 : Fill.t,
    Fill_agree_on_net_inputs f1 f2 ->
    Fill.NetValue f1 = Fill.NetValue f2.
Proof.
  intros f1 f2 (Hq & Hp & Hc & Hd).
  unfold Fill.NetValue.
  rewrite Hq, Hp, Hc, Hd. reflexivity.
Qed.

(** A fill whose cost is the sum of its commission and fee, and one whose
    cost is not. *)
Lemma Fill_NetValue_reads_four_fields_witness :
  let f1 := Fill.mk zero_Event "XETRA" "BOT" 10 50 1.5 1 2.5 in
  let f2 := Fill.mk zero_Event "NYSE" "BOT" 10 50 7 0.25 2.5 in
  Fill_agree_on_net_inputs f1 f2 /\
  (Fill.commission f2 + Fill.exchangeFee f2 =? Fill.cost f2)%float = false /\
  Fill.NetValue f1 = Fill.NetValue f2.
Proof.
  cbv zeta.
  assert (H : Fill_agree_on_net_inputs
                (Fill.mk zero_Event "XETRA" "BOT" 10 50 1.5 1 2.5)
                (Fill.mk zero_Event "NYSE" "BOT" 10 50 7 0.25 2.5))
    by (repeat split).
  split; [exact H|].
  split; [reflexivity|].
  exact (Fill_NetValue_reads_four_fields _ _ H).
Defined.

(** The scenarios of the specification. *)
Example scenarios :
  fst (Bar.LatestPrice (sample_Bar 101.5) ∅) = 101.5%float /\
  fst (Tick.LatestPrice (sample_Tick 100 100.5) ∅) = 100.25%float /\
  Fill.Value (sample_Fill "BOT" 10 50 2.5) = 500%float /\
  Fill.Value (sample_Fill "SLD" 10 50 2.5) = 500%float /\
  Fill.NetValue (sample_Fill "unknown" 5 10 1) = 49%float.
Proof. repeat split; vm_compute; reflexivity. Qed.

(** Read with Go's [==], the equations above hold whenever the value is not
    NaN; a NaN differs from itself, as the close of this bar does. *)
Example Bar_LatestPrice_of_nan :
  fst (Bar.LatestPrice (sample_Bar nan) ∅) = nan /\
  float64_eq (fst (Bar.LatestPrice (sample_Bar nan) ∅)) nan = false.
Proof. split; reflexivity. Qed.

Lemma Bar_LatestPrice_go_eq (b : Bar.t) (h : heap) :
  is_nan (Bar.Close b) = false ->
  float64_eq (fst (Bar.LatestPrice b h)) (Bar.Close b) = true.
Proof. intros H. now apply float64_eq_of_eq. Qed.

Lemma Fill_NetValue_not_BOT_go_eq (f : Fill.t) :
  Fill.direction f <> "BOT" ->
  is_nan (float64_of_int (Fill.qty f) * Fill.price f - Fill.cost f)%float = false ->
  float64_eq (Fill.NetValue f)
             (float64_of_int (Fill.qty f) * Fill.price f - Fill.cost f)%float = true.
Proof. intros Hd Hn. apply float64_eq_of_eq; [now apply Fill_NetValue_not_BOT|exact Hn]. Qed.

(** ** Accessors and mutators of Event *)

Lemma Event_round_trip :
  round_trip Event.SetTime Event.Time /\ round_trip Event.SetSymbol Event.Symbol.
Proof. split; intros x [ts sym]; reflexivity. Qed.

Lemma Event_frame :
  preserves Event.SetTime Event.Symbol /\ preserves Event.SetSymbol Event.Time.
Proof. split; intros x [ts sym]; reflexivity. Qed.

Lemma Event_commute : commute Event.SetTime Event.SetSymbol.
Proof. intros x y [ts sym]. reflexivity. Qed.

(** ** Promotion of the methods of Event *)

Section Promotion.

Context {A : Type} (get : A -> Event.t) (put : Event.t -> A -> A).
Hypothesis Hembeds : embeds get put.

Lemma promoted_round_trip {X : Type}
    (set : X -> Event.t -> Event.t) (read : Event.t -> X) :
  round_trip set read ->
  round_trip (promoted get put set) (fun a => read (get a)).
Proof.
  intros Hrt x a. unfold promoted.
  destruct Hembeds as [Hget _]. rewrite Hget. apply Hrt.
Qed.

Lemma promoted_preserves_embedded {X B : Type}
    (set : X -> Event.t -> Event.t) (obs : Event.t -> B) :
  preserves set obs ->
  preserves (promoted get put set) (fun a => obs (get a)).
Proof.
  intros Hp x a. unfold promoted.
  destruct Hembeds as [Hget _]. rewrite Hget. apply Hp.
Qed.

Lemma promoted_preserves_own {X B : Type}
    (set : X -> Event.t -> Event.t) (own : A -> B) :
  (forall e a, own (put e a) = own a) ->
  preserves (promoted get put set) own.
Proof. intros Hown x a. unfold promoted. apply Hown. Qed.

Lemma promoted_commute {X Y : Type}
    (f : X -> Event.t -> Event.t) (g : Y -> Event.t -> Event.t) :
  commute f g ->
  commute (promoted get put f) (promoted get put g).
Proof.
  intros Hc x y a. unfold promoted.
  destruct Hembeds as [Hget Hput].
  rewrite !Hget, !Hput, Hc. reflexivity.
Qed.

End Promotion.

Lemma Bar_embeds : embeds Bar.Event Bar.with_Event.
Proof. split; reflexivity. Qed.

Lemma Tick_embeds : embeds Tick.Event Tick.with_Event.
Proof. split; reflexivity. Qed.

Lemma Signal_embeds : embeds Signal.Event Signal.with_Event.
Proof. split; reflexivity. Qed.

Lemma Order_embeds : embeds Order.Event Order.with_Event.
Proof. split; reflexivity. Qed.

Lemma Fill_embeds : embeds Fill.Event Fill.with_Event.
Proof. split; reflexivity. Qed.

(** Time and Symbol round-trip on every struct that embeds an Event. *)
Lemma embedded_round_trip {A : Type} (get : A -> Event.t) (put : Event.t -> A -> A) :
  embeds get put ->
  round_trip (promoted get put Event.SetTime) (fun a => Event.Time (get a)) /\
  round_trip (promoted get put Event.SetSymbol) (fun a => Event.Symbol (get a)).
Proof.
  intros H. destruct Event_round_trip as [Ht Hs].
  split; apply promoted_round_trip; assumption.
Qed.

Lemma Signal_Direction_round_trip : round_trip Signal.SetDirection Signal.Direction.
Proof. intros x [ev dir]. reflexivity. Qed.

Lemma Order_Direction_round_trip : round_trip Order.SetDirection Order.Direction.
Proof. intros x [ev dir q ty lim]. reflexivity. Qed.

Lemma Order_Qty_round_trip : round_trip Order.SetQty Order.Qty.
Proof. intros x [ev dir q ty lim]. reflexivity. Qed.

Lemma Fill_Direction_round_trip : round_trip Fill.SetDirection Fill.Direction.
Proof. intros x [ev ex dir q p com fee c]. reflexivity. Qed.

Lemma Fill_Qty_round_trip : round_trip Fill.SetQty Fill.Qty.
Proof. intros x [ev ex dir q p com fee c]. reflexivity. Qed.

(** C5. On every event struct, reading an attribute after setting it
    returns the value set: Time and Symbol on Bar, Tick, Signal, Order and
    Fill (and on Event itself), Direction on Signal, Order and Fill, Qty on
    Order and Fill; for every timestamp, string and integer. *)
Theorem setter_then_getter :
  (round_trip (A := Event.t) SetTime Time /\
   round_trip (A := Event.t) SetSymbol Symbol) /\
  (round_trip (A := Bar.t) SetTime Time /\
   round_trip (A := Bar.t) SetSymbol Symbol) /\
  (round_trip (A := Tick.t) SetTime Time /\
   round_trip (A := Tick.t) SetSymbol Symbol) /\
  (round_trip (A := Signal.t) SetTime Time /\
   round_trip (A := Signal.t) SetSymbol Symbol /\
   round_trip (A := Signal.t) SetDirection Direction) /\
  (round_trip (A := Order.t) SetTime Time /\
   round_trip (A := Order.t) SetSymbol Symbol /\
   round_trip (A := Order.t) SetDirection Direction /\
   round_trip (A := Order.t) SetQty Qty) /\
  (round_trip (A := Fill.t) SetTime Time /\
   round_trip (A := Fill.t) SetSymbol Symbol /\
   round_trip (A := Fill.t) SetDirection Direction /\
   round_trip (A := Fill.t) SetQty Qty).
Proof.
  split; [exact Event_round_trip|].
  split; [exact (embedded_round_trip _ _ Bar_embeds)|].
  split; [exact (embedded_round_trip _ _ Tick_embeds)|].
  split; [|split].
  - destruct (embedded_round_trip _ _ Signal_embeds) as [Ht Hs].
    exact (conj Ht (conj Hs Signal_Direction_round_trip)).
  - destruct (embedded_round_trip _ _ Order_embeds) as [Ht Hs].
    exact (conj Ht (conj Hs (conj Order_Direction_round_trip Order_Qty_round_trip))).
  - destruct (embedded_round_trip _ _ Fill_embeds) as [Ht Hs].
    exact (conj Ht (conj Hs (conj Fill_Direction_round_trip Fill_Qty_round_trip))).
Qed.

(** ** Setters never fail *)

(** A setter that round-trips is one whose call on a live receiver returns
    with the value stored. *)
Lemma round_trip_never_fails {A X : Type} (set : X -> A -> A) (get : A -> X) :
  round_trip set get -> never_fails set get.
Proof.
  intros Hrt x a. exists (set x a). split.
  - unfold invoke. reflexivity.
  - apply Hrt.
Qed.

Lemma embedded_never_fails {A : Type} (get : A -> Event.t) (put : Event.t -> A -> A) :
  embeds get put ->
  never_fails (promoted get put Event.SetTime) (fun a => Event.Time (get a)) /\
  never_fails (promoted get put Event.SetSymbol) (fun a => Event.Symbol (get a)).
Proof.
  intros H. destruct (embedded_round_trip get put H) as [Ht Hs].
  split; apply round_trip_never_fails; assumption.
Qed.

(** The one call that does not return is the call through a nil pointer. *)
Lemma invoke_nil {A : Type} (m : A -> A) : invoke None m = Panics.
Proof. reflexivity. Qed.

(** C6. No setter validates or fails: called on a live receiver with any
    timestamp, any string (a direction outside the vocabulary of the kind
    included) or any integer (negative ones included), it returns and the
    value is stored as given. To return and to panic are the only outcomes
    of a call, and a setter has no result to signal an error with. *)
Theorem setters_never_fail :
  (never_fails (A := Event.t) SetTime Time /\
   never_fails (A := Event.t) SetSymbol Symbol) /\
  (never_fails (A := Bar.t) SetTime Time /\
   never_fails (A := Bar.t) SetSymbol Symbol) /\
  (never_fails (A := Tick.t) SetTime Time /\
   never_fails (A := Tick.t) SetSymbol Symbol) /\
  (never_fails (A := Signal.t) SetTime Time /\
   never_fails (A := Signal.t) SetSymbol Symbol /\
   never_fails (A := Signal.t) SetDirection Direction) /\
  (never_fails (A := Order.t) SetTime Time /\
   never_fails (A := Order.t) SetSymbol Symbol /\
   never_fails (A := Order.t) SetDirection Direction /\
   never_fails (A := Order.t) SetQty Qty) /\
  (never_fails (A := Fill.t) SetTime Time /\
   never_fails (A := Fill.t) SetSymbol Symbol /\
   never_fails (A := Fill.t) SetDirection Direction /\
   never_fails (A := Fill.t) SetQty Qty).
Proof.
  pose proof (@round_trip_never_fails) as H.
  split; [|split; [|split; [|split; [|split]]]].
  - destruct Event_round_trip as [Ht Hs].
    exact (conj (H _ _ _ _ Ht) (H _ _ _ _ Hs)).
  - exact (embedded_never_fails _ _ Bar_embeds).
  - exact (embedded_never_fails _ _ Tick_embeds).
  - destruct (embedded_never_fails _ _ Signal_embeds) as [Ht Hs].
    exact (conj Ht (conj Hs (H _ _ _ _ Signal_Direction_round_trip))).
  - destruct (embedded_never_fails _ _ Order_embeds) as [Ht Hs].
    exact (conj Ht (conj Hs (conj (H _ _ _ _ Order_Direction_round_trip)
                                  (H _ _ _ _ Order_Qty_round_trip)))).
  - destruct (embedded_never_fails _ _ Fill_embeds) as [Ht Hs].
    exact (conj Ht (conj Hs (conj (H _ _ _ _ Fill_Direction_round_trip)
                                  (H _ _ _ _ Fill_Qty_round_trip)))).
Qed.

(** Values a validating setter would refuse, stored all the same: a
    direction of another kind's vocabulary, the empty direction, a negative
    quantity and the least int64. *)
Example unchecked_values :
  int64_ok (-5) /\ int64_ok int64_min /\
  invoke (Some (sample_Fill "BOT" 10 50 2.5)) (SetDirection "long")
  = Returns (sample_Fill "long" 10 50 2.5) /\
  invoke (Some (Signal.mk zero_Event "short")) (SetDirection "")
  = Returns (Signal.mk zero_Event "") /\
  invoke (Some (sample_Fill "SLD" 10 50 2.5)) (SetQty (-5))
  = Returns (sample_Fill "SLD" (-5) 50 2.5) /\
  invoke (Some (Order.mk zero_Event "buy" 1 "market" 0)) (SetQty int64_min)
  = Returns (Order.mk zero_Event "buy" int64_min "market" 0).
Proof.
  split; [|split].
  - unfold int64_ok, int64_min, int64_max. lia.
  - unfold int64_ok, int64_min, int64_max. lia.
  - split; [|split; [|split]]; reflexivity.
Qed.

(** ** Setters change one field *)

(** A promoted SetTime leaves the symbol and the struct's own fields as
    they were, and a promoted SetSymbol the timestamp and the own fields. *)
Lemma embedded_frame {A B : Type} (get : A -> Event.t) (put : Event.t -> A -> A)
    (own : A -> B) :
  embeds get put ->
  (forall e a, own (put e a) = own a) ->
  preserves (promoted get put Event.SetTime)
            (fun a => (Event.Symbol (get a), own a)) /\
  preserves (promoted get put Event.SetSymbol)
            (fun a => (Event.Time (get a), own a)).
Proof.
  intros H Hown. destruct Event_frame as [Ht Hs].
  split; intros x a; cbv beta.
  - rewrite (promoted_preserves_embedded get put H _ _ Ht x a).
    rewrite (promoted_preserves_own get put _ own Hown x a).
    reflexivity.
  - rewrite (promoted_preserves_embedded get put H _ _ Hs x a).
    rewrite (promoted_preserves_own get put _ own Hown x a).
    reflexivity.
Qed.

Lemma Signal_SetDirection_frame : preserves Signal.SetDirection Signal.Event.
Proof. intros x [ev dir]. reflexivity. Qed.

Lemma Order_SetDirection_frame :
  preserves Order.SetDirection
    (fun o => (Order.Event o, Order.qty o, Order.OrderType o, Order.Limit o)).
Proof. intros x [ev dir q ty lim]. reflexivity. Qed.

Lemma Order_SetQty_frame :
  preserves Order.SetQty
    (fun o => (Order.Event o, Order.direction o, Order.OrderType o, Order.Limit o)).
Proof. intros x [ev dir q ty lim]. reflexivity. Qed.

Lemma Fill_SetDirection_frame :
  preserves Fill.SetDirection
    (fun f => (Fill.Event f, Fill.Exchange f, Fill.qty f, Fill.price f,
               Fill.commission f, Fill.exchangeFee f, Fill.cost f)).
Proof. intros x [ev ex dir q p com fee c]. reflexivity. Qed.

Lemma Fill_SetQty_frame :
  preserves Fill.SetQty
    (fun f => (Fill.Event f, Fill.Exchange f, Fill.direction f, Fill.price f,
               Fill.commission f, Fill.exchangeFee f, Fill.cost f)).
Proof. intros x [ev ex dir q p com fee c]. reflexivity. Qed.

(** C9. Every setter changes its own field only. SetTime leaves the symbol
    and the fields of the struct outside the embedded Event ([own]) as they
    were, and SetSymbol the timestamp and those fields; SetDirection on
    Signal, Order and Fill leaves the embedded Event and every field but the
    direction; SetQty on Order and Fill leaves the embedded Event and every
    field but the quantity (OrderType and Limit of an Order, price,
    commission, exchangeFee and cost of a Fill among them). *)
Theorem setters_change_one_field :
  (preserves (A := Event.t) SetTime Symbol /\
   preserves (A := Event.t) SetSymbol Time) /\
  (preserves (A := Bar.t) SetTime (fun b => (Symbol b, Bar.own b)) /\
   preserves (A := Bar.t) SetSymbol (fun b => (Time b, Bar.own b))) /\
  (preserves (A := Tick.t) SetTime (fun k => (Symbol k, Tick.own k)) /\
   preserves (A := Tick.t) SetSymbol (fun k => (Time k, Tick.own k))) /\
  (preserves (A := Signal.t) SetTime (fun s => (Symbol s, Signal.own s)) /\
   preserves (A := Signal.t) SetSymbol (fun s => (Time s, Signal.own s)) /\
   preserves (A := Signal.t) SetDirection Signal.Event) /\
  (preserves (A := Order.t) SetTime (fun o => (Symbol o, Order.own o)) /\
   preserves (A := Order.t) SetSymbol (fun o => (Time o, Order.own o)) /\
   preserves (A := Order.t) SetDirection
     (fun o => (Order.Event o, Order.qty o, Order.OrderType o, Order.Limit o)) /\
   preserves (A := Order.t) SetQty
     (fun o => (Order.Event o, Order.direction o, Order.OrderType o, Order.Limit o))) /\
  (preserves (A := Fill.t) SetTime (fun f => (Symbol f, Fill.own f)) /\
   preserves (A := Fill.t) SetSymbol (fun f => (Time f, Fill.own f)) /\
   preserves (A := Fill.t) SetDirection
     (fun f => (Fill.Event f, Fill.Exchange f, Fill.qty f, Fill.price f,
                Fill.commission f, Fill.exchangeFee f, Fill.cost f)) /\
   preserves (A := Fill.t) SetQty
     (fun f => (Fill.Event f, Fill.Exchange f, Fill.direction f, Fill.price f,
                Fill.commission f, Fill.exchangeFee f, Fill.cost f))).
Proof.
  split; [exact Event_frame|].
  split; [exact (embedded_frame _ _ Bar.own Bar_embeds (fun _ _ => eq_refl))|].
  split; [exact (embedded_frame _ _ Tick.own Tick_embeds (fun _ _ => eq_refl))|].
  split; [|split].
  - destruct (embedded_frame _ _ Signal.own Signal_embeds (fun _ _ => eq_refl))
      as [Ht Hs].
    exact (conj Ht (conj Hs Signal_SetDirection_frame)).
  - destruct (embedded_frame _ _ Order.own Order_embeds (fun _ _ => eq_refl))
      as [Ht Hs].
    exact (conj Ht (conj Hs (conj Order_SetDirection_frame Order_SetQty_frame))).
  - destruct (embedded_frame _ _ Fill.own Fill_embeds (fun _ _ => eq_refl))
      as [Ht Hs].
    exact (conj Ht (conj Hs (conj Fill_SetDirection_frame Fill_SetQty_frame))).
Qed.

(** ** Setters of distinct attributes commute *)

Lemma Order_commute : commute Order.SetDirection Order.SetQty.
Proof. intros d q [ev dir q0 ty lim]. reflexivity. Qed.

Lemma Fill_commute : commute Fill.SetDirection Fill.SetQty.
Proof. intros d q [ev ex dir q0 p com fee c]. reflexivity. Qed.

Lemma embedded_commute {A : Type} (get : A -> Event.t) (put : Event.t -> A -> A) :
  embeds get put ->
  commute (promoted get put Event.SetTime) (promoted get put Event.SetSymbol).
Proof. intros H. apply promoted_commute; [exact H|exact Event_commute]. Qed.

(** C10. SetTime and SetSymbol commute on every event struct (and on Event
    itself): set in either order, the struct ends in the same state.
    SetDirection and SetQty commute on Order and on Fill. *)
Theorem setters_commute :
  commute (A := Event.t) SetTime SetSymbol /\
  commute (A := Bar.t) SetTime SetSymbol /\
  commute (A := Tick.t) SetTime SetSymbol /\
  commute (A := Signal.t) SetTime SetSymbol /\
  commute (A := Order.t) SetTime SetSymbol /\
  commute (A := Fill.t) SetTime SetSymbol /\
  commute (A := Order.t) SetDirection SetQty /\
  commute (A := Fill.t) SetDirection SetQty.
Proof.
  split; [exact Event_commute|].
  split; [exact (embedded_commute _ _ Bar_embeds)|].
  split; [exact (embedded_commute _ _ Tick_embeds)|].
  split; [exact (embedded_commute _ _ Signal_embeds)|].
  split; [exact (embedded_commute _ _ Order_embeds)|].
  split; [exact (embedded_commute _ _ Fill_embeds)|].
  exact (conj Order_commute Fill_commute).
Qed.

(** ** Repeated and idle assignments *)

(** X1. Of two calls of the same setter in a row only the second counts,
    for every setter of every struct: the first value is overwritten and
    nothing else of the first call is left. *)
Theorem setters_last_write_wins :
  (last_write_wins (A := Event.t) SetTime /\
   last_write_wins (A := Event.t) SetSymbol) /\
  (last_write_wins (A := Bar.t) SetTime /\
   last_write_wins (A := Bar.t) SetSymbol) /\
  (last_write_wins (A := Tick.t) SetTime /\
   last_write_wins (A := Tick.t) SetSymbol) /\
  (last_write_wins (A := Signal.t) SetTime /\
   last_write_wins (A := Signal.t) SetSymbol /\
   last_write_wins (A := Signal.t) SetDirection) /\
  (last_write_wins (A := Order.t) SetTime /\
   last_write_wins (A := Order.t) SetSymbol /\
   last_write_wins (A := Order.t) SetDirection /\
   last_write_wins (A := Order.t) SetQty) /\
  (last_write_wins (A := Fill.t) SetTime /\
   last_write_wins (A := Fill.t) SetSymbol /\
   last_write_wins (A := Fill.t) SetDirection /\
   last_write_wins (A := Fill.t) SetQty).
Proof.
  split; [split; intros x y [ts sym]; reflexivity|].
  split; [split; intros x y [[ts sym] de o hi lo cl adj vol]; reflexivity|].
  split; [split; intros x y [[ts sym] de bid ask]; reflexivity|].
  split; [|split].
  - split; [|split]; intros x y [[ts sym] dir]; reflexivity.
  - split; [|split; [|split]]; intros x y [[ts sym] dir q ty lim]; reflexivity.
  - split; [|split; [|split]];
      intros x y [[ts sym] ex dir q p com fee c]; reflexivity.
Qed.

(** X2. Setting an attribute to the value its getter returns changes
    nothing: the struct after the call is the struct before it. *)
Theorem setters_idle_on_same :
  (idle_on_same (A := Event.t) SetTime Time /\
   idle_on_same (A := Event.t) SetSymbol Symbol) /\
  (idle_on_same (A := Bar.t) SetTime Time /\
   idle_on_same (A := Bar.t) SetSymbol Symbol) /\
  (idle_on_same (A := Tick.t) SetTime Time /\
   idle_on_same (A := Tick.t) SetSymbol Symbol) /\
  (idle_on_same (A := Signal.t) SetTime Time /\
   idle_on_same (A := Signal.t) SetSymbol Symbol /\
   idle_on_same (A := Signal.t) SetDirection Direction) /\
  (idle_on_same (A := Order.t) SetTime Time /\
   idle_on_same (A := Order.t) SetSymbol Symbol /\
   idle_on_same (A := Order.t) SetDirection Direction /\
   idle_on_same (A := Order.t) SetQty Qty) /\
  (idle_on_same (A := Fill.t) SetTime Time /\
   idle_on_same (A := Fill.t) SetSymbol Symbol /\
   idle_on_same (A := Fill.t) SetDirection Direction /\
   idle_on_same (A := Fill.t) SetQty Qty).
Proof.
  split; [split; intros [ts sym]; reflexivity|].
  split; [split; intros [[ts sym] de o hi lo cl adj vol]; reflexivity|].
  split; [split; intros [[ts sym] de bid ask]; reflexivity|].
  split; [|split].
  - split; [|split]; intros [[ts sym] dir]; reflexivity.
  - split; [|split; [|split]]; intros [[ts sym] dir q ty lim]; reflexivity.
  - split; [|split; [|split]];
      intros [[ts sym] ex dir q p com fee c]; reflexivity.
Qed.

(** ** Building an event with its setters *)

(** X3. An Order or a Fill on which the four setters were called, in this
    order or in the opposite one, holds the four values set and, in its
    other fields (OrderType and Limit; Exchange, price, commission,
    exchangeFee and cost), what it held before; so each getter returns the
    value of its own setter, whatever the other setters were given. *)
Theorem setters_build :
  (forall (x : time.Time) (s d : string) (q : int64) (o : Order.t),
      SetQty q (SetDirection d (SetSymbol s (SetTime x o)))
      = Order.mk (Event.mk x s) d q (Order.OrderType o) (Order.Limit o) /\
      SetTime x (SetSymbol s (SetDirection d (SetQty q o)))
      = Order.mk (Event.mk x s) d q (Order.OrderType o) (Order.Limit o)) /\
  (forall (x : time.Time) (s d : string) (q : int64) (f : Fill.t),
      SetQty q (SetDirection d (SetSymbol s (SetTime x f)))
      = Fill.mk (Event.mk x s) (Fill.Exchange f) d q (Fill.price f)
                (Fill.commission f) (Fill.exchangeFee f) (Fill.cost f) /\
      SetTime x (SetSymbol s (SetDirection d (SetQty q f)))
      = Fill.mk (Event.mk x s) (Fill.Exchange f) d q (Fill.price f)
                (Fill.commission f) (Fill.exchangeFee f) (Fill.cost f)) /\
  (forall (x : time.Time) (s d : string) (q : int64) (f : Fill.t),
      let f' := SetQty q (SetDirection d (SetSymbol s (SetTime x f))) in
      Time f' = x /\ Symbol f' = s /\ Direction f' = d /\ Qty f' = q /\
      Price f' = Price f /\ Commission f' = Commission f /\
      ExchangeFee f' = ExchangeFee f /\ Cost f' = Cost f).
Proof.
  split; [|split].
  - intros x s d q [[ts sym] dir q0 ty lim]. split; reflexivity.
  - intros x s d q [[ts sym] ex dir q0 p com fee c]. split; reflexivity.
  - intros x s d q [[ts sym] ex dir q0 p com fee c]. cbv zeta.
    repeat (split; [reflexivity|]). reflexivity.
Qed.

(** ** Derived values and setters *)

(** X4. The derived values do not depend on the identity of the event:
    SetTime and SetSymbol leave LatestPrice of a Bar and of a Tick, and
    Value and NetValue of a Fill, as they were; SetDirection leaves Value as
    it was. *)
Theorem derived_values_ignore_identity :
  (preserves (A := Bar.t) SetTime LatestPrice /\
   preserves (A := Bar.t) SetSymbol LatestPrice) /\
  (preserves (A := Tick.t) SetTime LatestPrice /\
   preserves (A := Tick.t) SetSymbol LatestPrice) /\
  (preserves (A := Fill.t) SetTime Value /\
   preserves (A := Fill.t) SetSymbol Value /\
   preserves (A := Fill.t) SetDirection Value) /\
  (preserves (A := Fill.t) SetTime NetValue /\
   preserves (A := Fill.t) SetSymbol NetValue).
Proof.
  split; [split; intros x [ev de o hi lo cl adj vol]; reflexivity|].
  split; [split; intros x [ev de bid ask]; reflexivity|].
  split.
  - split; [|split]; intros x [ev ex dir q p com fee c]; reflexivity.
  - split; intros x [ev ex dir q p com fee c]; reflexivity.
Qed.




(** ** IEEE 754 facts the derived values rest on *)

Lemma SFeqb_refl (x : spec_float) : x <> S754_nan -> SFeqb x x = true.
Proof.
  unfold SFeqb. destruct x as [s|s| |s m e]; intros H; try congruence.
  - reflexivity.
  - destruct s; reflexivity.
  - cbn. destruct s; rewrite Z.compare_refl, Pos.compare_cont_refl; reflexivity.
Qed.

Lemma is_nan_false_spec (x : float64) :
  is_nan x = false <-> Prim2SF x <> S754_nan.
Proof.
  unfold is_nan. rewrite FloatAxioms.eqb_spec. split.
  - intros H E. rewrite E in H. discriminate.
  - intros H. now rewrite SFeqb_refl.
Qed.

Lemma is_nan_true_spec (x : float64) :
  is_nan x = true <-> Prim2SF x = S754_nan.
Proof.
  split.
  - intros H. destruct (Prim2SF x) eqn:E; try reflexivity;
      assert (Hf : is_nan x = false)
        by (apply is_nan_false_spec; rewrite E; discriminate);
      congruence.
  - intros E. unfold is_nan. rewrite FloatAxioms.eqb_spec, E. reflexivity.
Qed.

Lemma is_infinity_spec (x : float64) :
  is_infinity x = true <-> exists s, Prim2SF x = S754_infinity s.
Proof.
  unfold is_infinity. rewrite FloatAxioms.eqb_spec, abs_spec.
  change (Prim2SF infinity) with (S754_infinity false).
  destruct (Prim2SF x) as [s|s| |s m e]; cbn; split;
    try discriminate; try (intros [s' H]; discriminate); eauto.
Qed.

Lemma float64_eq_zero_spec (c : float64) :
  float64_eq c 0 = true -> exists s, Prim2SF c = S754_zero s.
Proof.
  unfold float64_eq. rewrite FloatAxioms.eqb_spec.
  change (Prim2SF 0) with (S754_zero false).
  destruct (Prim2SF c) as [s|s| |s m e]; cbn; try discriminate.
  - eauto.
  - destruct s; discriminate.
  - destruct s; discriminate.
Qed.

(** Adding or subtracting a zero gives back an equal number. *)
Lemma float64_add_zero (x c : float64) :
  float64_eq c 0 = true -> is_nan x = false -> float64_eq (x + c) x = true.
Proof.
  intros Hc Hx. apply float64_eq_zero_spec in Hc as [s Hc].
  apply is_nan_false_spec in Hx.
  unfold float64_eq. rewrite FloatAxioms.eqb_spec, add_spec, Hc. unfold SF64add.
  destruct (Prim2SF x) as [sx|sx| |sx m e]; try congruence.
  - destruct sx, s; reflexivity.
  - destruct sx; reflexivity.
  - exact (SFeqb_refl _ Hx).
Qed.

Lemma float64_sub_zero (x c : float64) :
  float64_eq c 0 = true -> is_nan x = false -> float64_eq (x - c) x = true.
Proof.
  intros Hc Hx. apply float64_eq_zero_spec in Hc as [s Hc].
  apply is_nan_false_spec in Hx.
  unfold float64_eq. rewrite FloatAxioms.eqb_spec, sub_spec, Hc. unfold SF64sub.
  destruct (Prim2SF x) as [sx|sx| |sx m e]; try congruence.
  - destruct sx, s; reflexivity.
  - destruct sx; reflexivity.
  - exact (SFeqb_refl _ Hx).
Qed.



Lemma SFadd_comm (x y : spec_float) : SFadd prec emax x y = SFadd prec emax y x.
Proof.
  destruct x as [sx|sx| |sx mx ex], y as [sy|sy| |sy my ey]; cbn;
    try reflexivity; try (destruct sx, sy; reflexivity).
  rewrite (Z.min_comm ex ey). f_equal. apply Z.add_comm.
Qed.

Lemma float64_add_comm (x y : float64) : (x + y = y + x)%float.
Proof. apply Prim2SF_inj. rewrite !add_spec. apply SFadd_comm. Qed.








(** A NaN operand makes a NaN result. *)
Lemma float64_mul_nan_r (x y : float64) :
  is_nan y = true -> is_nan (x * y) = true.
Proof.
  rewrite !is_nan_true_spec, mul_spec. intros ->.
  destruct (Prim2SF x); reflexivity.
Qed.

Lemma float64_add_nan (x y : float64) :
  is_nan x = true \/ is_nan y = true -> is_nan (x + y) = true.
Proof.
  rewrite !is_nan_true_spec, add_spec. intros [-> | ->].
  - reflexivity.
  - destruct (Prim2SF x) as [s|s| |s m e]; reflexivity.
Qed.

Lemma float64_sub_nan (x y : float64) :
  is_nan x = true \/ is_nan y = true -> is_nan (x - y) = true.
Proof.
  rewrite !is_nan_true_spec, sub_spec. intros [-> | ->].
  - reflexivity.
  - destruct (Prim2SF x) as [s|s| |s m e]; reflexivity.
Qed.

Lemma float64_div_nan_l (x y : float64) :
  is_nan x = true -> is_nan (x / y) = true.
Proof. rewrite !is_nan_true_spec, div_spec. intros ->. reflexivity. Qed.

(** Zero times a finite number is a zero; zero times anything else, NaN. *)
Lemma float64_zero_mul (y : float64) :
  (is_finite y = true -> float64_eq (0 * y) 0 = true) /\
  (is_finite y = false -> is_nan (0 * y) = true).
Proof.
  unfold is_finite, float64_eq. split; intros H.
  - apply negb_true_iff, orb_false_iff in H as [Hn Hi].
    apply is_nan_false_spec in Hn.
    rewrite FloatAxioms.eqb_spec, mul_spec.
    change (Prim2SF 0) with (S754_zero false).
    destruct (Prim2SF y) as [s|s| |s m e] eqn:E; try congruence.
    + destruct s; reflexivity.
    + assert (is_infinity y = true) by (apply is_infinity_spec; eauto).
      congruence.
    + destruct s; reflexivity.
  - apply negb_false_iff, orb_true_iff in H.
    apply is_nan_true_spec. rewrite mul_spec.
    change (Prim2SF 0) with (S754_zero false).
    destruct H as [H|H].
    + apply is_nan_true_spec in H. rewrite H. reflexivity.
    + apply is_infinity_spec in H as [s H]. rewrite H. reflexivity.
Qed.

(** ** Numeric behaviour of the derived values *)

(** X7. A fill whose cost is zero (of either sign) has a NetValue equal,
    under Go's [==], to its Value, whatever its direction, provided the
    Value is a number. *)
Theorem Fill_NetValue_zero_cost :
  forall f : Fill.t,
    float64_eq (Fill.Cost f) 0 = true ->
    is_nan (Fill.Value f) = false ->
    float64_eq (Fill.NetValue f) (Fill.Value f) = true.
Proof.
  intros [ev ex dir q p com fee c] Hc Hv.
  unfold Fill.Cost, Fill.Value in *. cbn [Fill.cost Fill.qty Fill.price] in *.
  unfold Fill.NetValue. cbn [Fill.direction Fill.cost Fill.qty Fill.price].
  destruct (String.eqb dir "BOT").
  - now apply float64_add_zero.
  - now apply float64_sub_zero.
Qed.

(** A buy and a sell without cost, the second with a cost of -0. *)
Lemma Fill_NetValue_zero_cost_witness :
  float64_eq (Fill.NetValue (sample_Fill "BOT" 10 50 0)) 500 = true /\
  float64_eq (Fill.NetValue (sample_Fill "SLD" 10 50 (-0))) 500 = true.
Proof.
  split.
  - exact (Fill_NetValue_zero_cost (sample_Fill "BOT" 10 50 0) eq_refl eq_refl).
  - exact (Fill_NetValue_zero_cost (sample_Fill "SLD" 10 50 (-0)) eq_refl eq_refl).
Defined.



(** X9. LatestPrice of a Tick is symmetric in Bid and Ask: the tick with
    the two exchanged has the same LatestPrice, so a crossed quote is priced
    as the quote it crosses. *)
Theorem Tick_LatestPrice_symmetric :
  forall (ev ev' : Event.t) (de de' : DataEvent.t) (bid ask : float64) (h : heap),
    fst (Tick.LatestPrice (Tick.mk ev de bid ask) h)
    = fst (Tick.LatestPrice (Tick.mk ev' de' ask bid) h).
Proof.
  intros ev ev' de de' bid ask h.
  rewrite !Tick_LatestPrice_run. cbn [fst Tick.Bid Tick.Ask].
  now rewrite (float64_add_comm bid ask).
Qed.



(** X11. Nothing checks for NaN: a fill whose price is NaN has a NaN Value
    and a NaN NetValue, a fill whose cost is NaN has a NaN NetValue, for
    every direction; a tick whose Bid or Ask is NaN has a NaN
    LatestPrice. *)
Theorem NaN_propagates :
  (forall f : Fill.t,
      is_nan (Fill.Price f) = true ->
      is_nan (Fill.Value f) = true /\ is_nan (Fill.NetValue f) = true) /\
  (forall f : Fill.t,
      is_nan (Fill.Cost f) = true -> is_nan (Fill.NetValue f) = true) /\
  (forall (k : Tick.t) (h : heap),
      is_nan (Tick.Bid k) = true \/ is_nan (Tick.Ask k) = true ->
      is_nan (fst (Tick.LatestPrice k h)) = true).
Proof.
  split; [|split].
  - intros [ev ex dir q p com fee c] Hp.
    unfold Fill.Price in Hp. cbn [Fill.price] in Hp.
    assert (Hv : is_nan (float64_of_int q * p) = true)
      by (now apply float64_mul_nan_r).
    split; [exact Hv|].
    unfold Fill.NetValue. cbn [Fill.direction Fill.qty Fill.price Fill.cost].
    destruct (String.eqb dir "BOT").
    + apply float64_add_nan. now left.
    + apply float64_sub_nan. now left.
  - intros [ev ex dir q p com fee c] Hc.
    unfold Fill.Cost in Hc. cbn [Fill.cost] in Hc.
    unfold Fill.NetValue. cbn [Fill.direction Fill.qty Fill.price Fill.cost].
    destruct (String.eqb dir "BOT").
    + apply float64_add_nan. now right.
    + apply float64_sub_nan. now right.
  - intros k h H. rewrite Tick_LatestPrice_run. cbn [fst].
    apply float64_div_nan_l, float64_add_nan, H.
Qed.

Lemma NaN_propagates_witness :
  is_nan (Fill.NetValue (sample_Fill "BOT" 10 nan 2.5)) = true /\
  is_nan (Fill.NetValue (sample_Fill "SLD" 10 50 nan)) = true /\
  is_nan (fst (Tick.LatestPrice (sample_Tick 100 nan) ∅)) = true.
Proof.
  split; [|split].
  - exact (proj2 (proj1 NaN_propagates (sample_Fill "BOT" 10 nan 2.5) eq_refl)).
  - exact (proj1 (proj2 NaN_propagates) (sample_Fill "SLD" 10 50 nan) eq_refl).
  - exact (proj2 (proj2 NaN_propagates) (sample_Tick 100 nan) ∅ (or_intror eq_refl)).
Defined.

(** X12. A fill of quantity zero has a Value equal to zero (under Go's
    [==]) when its price is finite, and a NaN Value when its price is
    infinite or NaN. *)
Theorem Fill_Value_zero_qty :
  forall f : Fill.t,
    Fill.Qty f = 0%Z ->
    (is_finite (Fill.Price f) = true -> float64_eq (Fill.Value f) 0 = true) /\
    (is_finite (Fill.Price f) = false -> is_nan (Fill.Value f) = true).
Proof.
  intros [ev ex dir q p com fee c] Hq.
  unfold Fill.Qty in Hq. cbn [Fill.qty] in Hq. subst q.
  unfold Fill.Price, Fill.Value. cbn [Fill.qty Fill.price].
  change (float64_of_int 0) with 0%float.
  apply float64_zero_mul.
Qed.

Lemma Fill_Value_zero_qty_witness :
  float64_eq (Fill.Value (sample_Fill "BOT" 0 50 2.5)) 0 = true /\
  is_nan (Fill.Value (sample_Fill "BOT" 0 infinity 2.5)) = true.
Proof.
  split.
  - exact (proj1 (Fill_Value_zero_qty (sample_Fill "BOT" 0 50 2.5) eq_refl) eq_refl).
  - exact (proj2 (Fill_Value_zero_qty (sample_Fill "BOT" 0 infinity 2.5) eq_refl) eq_refl).
Defined.
